(** * qr-code-generator-web: the configuration store, the preview and the
      export actions of [src/App.tsx], over the types of [src/types.ts].

    The [App] component keeps three [useState] cells ([text], [copied],
    [options]) and one DOM ref ([qrRef]).  Its handlers are embedded as
    computations of a small state-and-exception monad over a [World] that
    holds the three cells together with what the handlers reach in the
    browser: the toast sink, the console, the anchors that were clicked,
    the timer queue and the suspended [copyToClipboard] calls.

    The rendering capability [QRCodeCanvas] belongs to a library: the
    page is modelled for an arbitrary capability, which may be unable to
    encode some props, and the page is then unmounted.

    JavaScript [number]s are only stored and forwarded by this code (the
    size slider yields integers through [parseInt]); they are integers
    here. *)

From Stdlib Require Import ZArith Lia Ascii.
From stdpp Require Import base strings list.

Local Open Scope string_scope.
Local Open Scope nat_scope.
Local Open Scope list_scope.

(** ** [src/types.ts] *)

Inductive ErrorCorrectionLevel := L | M | Q | H.

Module ImageSettings.
Record t := mk {
  src : string;
  height : Z;
  width : Z;
  excavate : bool;
}.
End ImageSettings.

Module QRCodeOptions.
Record t := mk {
  size : Z;
  level : ErrorCorrectionLevel;
  bgColor : string;
  fgColor : string;
  includeMargin : bool;
  marginSize : Z;
  imageSettings : option ImageSettings.t;   (* [imageSettings?]: may be undefined *)
}.

(** [keyof QRCodeOptions] and the indexed type [QRCodeOptions[K]]. *)
Inductive Key :=
| key_size | key_level | key_bgColor | key_fgColor
| key_includeMargin | key_marginSize | key_imageSettings.

Definition Field (k : Key) : Type :=
  match k with
  | key_size => Z
  | key_level => ErrorCorrectionLevel
  | key_bgColor => string
  | key_fgColor => string
  | key_includeMargin => bool
  | key_marginSize => Z
  | key_imageSettings => option ImageSettings.t
  end.

(** [o[k]] *)
Definition get (k : Key) (o : t) : Field k :=
  match k with
  | key_size => size o
  | key_level => level o
  | key_bgColor => bgColor o
  | key_fgColor => fgColor o
  | key_includeMargin => includeMargin o
  | key_marginSize => marginSize o
  | key_imageSettings => imageSettings o
  end.

(** The object spread [{ ...prev, [k]: v }]. *)
Definition spread (prev : t) (k : Key) : Field k -> t :=
  match k with
  | key_size => fun v =>
      mk v (level prev) (bgColor prev) (fgColor prev)
         (includeMargin prev) (marginSize prev) (imageSettings prev)
  | key_level => fun v =>
      mk (size prev) v (bgColor prev) (fgColor prev)
         (includeMargin prev) (marginSize prev) (imageSettings prev)
  | key_bgColor => fun v =>
      mk (size prev) (level prev) v (fgColor prev)
         (includeMargin prev) (marginSize prev) (imageSettings prev)
  | key_fgColor => fun v =>
      mk (size prev) (level prev) (bgColor prev) v
         (includeMargin prev) (marginSize prev) (imageSettings prev)
  | key_includeMargin => fun v =>
      mk (size prev) (level prev) (bgColor prev) (fgColor prev)
         v (marginSize prev) (imageSettings prev)
  | key_marginSize => fun v =>
      mk (size prev) (level prev) (bgColor prev) (fgColor prev)
         (includeMargin prev) v (imageSettings prev)
  | key_imageSettings => fun v =>
      mk (size prev) (level prev) (bgColor prev) (fgColor prev)
         (includeMargin prev) (marginSize prev) v
  end.
End QRCodeOptions.

Module PresetStyle.
Record t := mk {
  name : string;
  bgColor : string;
  fgColor : string;
  icon : string;
  color : string;
}.
End PresetStyle.

(** ** The collaborators of [src/App.tsx] *)

(** The props [App] hands to [QRCodeCanvas] (lines 306-313). *)
Module QRCodeCanvasProps.
Record t := mk {
  value : string;
  size : Z;
  level : ErrorCorrectionLevel;
  bgColor : string;
  fgColor : string;
  includeMargin : bool;
}.
End QRCodeCanvasProps.

(** The [<canvas>] element mounted by [QRCodeCanvas]: an opaque handle,
    known by the props it is drawn from. *)
Record HTMLCanvasElement := Canvas { drawn_from : QRCodeCanvasProps.t }.

(** [canvas.toDataURL('image/png')] and the blob that [canvas.toBlob]
    hands to its callback: the PNG encodings of the canvas. *)
Inductive DataURL := png_url (c : HTMLCanvasElement).
Inductive Blob := png_blob (c : HTMLCanvasElement).

(** The [<a>] element that [downloadQRCode] builds and clicks. *)
Record Anchor := { download : string; href : DataURL }.

Inductive ToastKind := success | error.
Record Toast := { kind : ToastKind; message : string }.

(** The callbacks given to [setTimeout]; the source has one,
    [() => setCopied(false)]. *)
Inductive Callback := clear_copied.

(** A call of the async function [copyToClipboard], between its awaits. *)
Inductive CopyCall :=
| AwaitBlob (canvas : HTMLCanvasElement)   (* await new Promise(... canvas.toBlob ...) *)
| AwaitWrite (blob : Blob)                 (* await navigator.clipboard.write([...]) *)
| Returned.                                (* the async function has returned *)

Inductive Exn :=
| TypeError (msg : string)        (* navigator.clipboard is undefined *)
| NotAllowedError (msg : string). (* the write promise rejected *)

(** ** The state *)

Record World := mkWorld {
  text : string;                       (* useState<string>('') *)
  copied : bool;                       (* useState<boolean>(false) *)
  options : QRCodeOptions.t;           (* useState<QRCodeOptions>({...}) *)
  toasts : list Toast;                 (* react-hot-toast, oldest first *)
  console : list string;               (* console.error *)
  clicked : list Anchor;               (* link.click() *)
  now : nat;                           (* milliseconds *)
  timeouts : list (nat * Callback);    (* pending setTimeout: due time, callback *)
  calls : list CopyCall;               (* copyToClipboard calls, by order of call *)
  clipboard_available : bool;          (* navigator.clipboard and ClipboardItem exist *)
}.

Definition with_text (v : string) (w : World) : World :=
  mkWorld v (copied w) (options w) (toasts w) (console w) (clicked w)
          (now w) (timeouts w) (calls w) (clipboard_available w).
Definition with_copied (v : bool) (w : World) : World :=
  mkWorld (text w) v (options w) (toasts w) (console w) (clicked w)
          (now w) (timeouts w) (calls w) (clipboard_available w).
Definition with_options (v : QRCodeOptions.t) (w : World) : World :=
  mkWorld (text w) (copied w) v (toasts w) (console w) (clicked w)
          (now w) (timeouts w) (calls w) (clipboard_available w).
Definition with_toasts (v : list Toast) (w : World) : World :=
  mkWorld (text w) (copied w) (options w) v (console w) (clicked w)
          (now w) (timeouts w) (calls w) (clipboard_available w).
Definition with_console (v : list string) (w : World) : World :=
  mkWorld (text w) (copied w) (options w) (toasts w) v (clicked w)
          (now w) (timeouts w) (calls w) (clipboard_available w).
Definition with_clicked (v : list Anchor) (w : World) : World :=
  mkWorld (text w) (copied w) (options w) (toasts w) (console w) v
          (now w) (timeouts w) (calls w) (clipboard_available w).
Definition with_now (v : nat) (w : World) : World :=
  mkWorld (text w) (copied w) (options w) (toasts w) (console w) (clicked w)
          v (timeouts w) (calls w) (clipboard_available w).
Definition with_timeouts (v : list (nat * Callback)) (w : World) : World :=
  mkWorld (text w) (copied w) (options w) (toasts w) (console w) (clicked w)
          (now w) v (calls w) (clipboard_available w).
Definition with_calls (v : list CopyCall) (w : World) : World :=
  mkWorld (text w) (copied w) (options w) (toasts w) (console w) (clicked w)
          (now w) (timeouts w) v (clipboard_available w).

(** ** Handlers as computations: state passing with exceptions *)

Inductive Completion (A : Type) :=
| Normal (a : A)
| Throw (e : Exn).
Arguments Normal {A} a.
Arguments Throw {A} e.

Definition Js (A : Type) : Type := World -> Completion A * World.

Definition js_ret {A} (a : A) : Js A := fun w => (Normal a, w).

Definition js_bind {A B} (k : A -> Js B) (m : Js A) : Js B :=
  fun w =>
    match m w with
    | (Normal a, w') => k a w'
    | (Throw e, w') => (Throw e, w')
    end.

#[global] Instance Js_ret : MRet Js := @js_ret.
#[global] Instance Js_bind : MBind Js := @js_bind.

Definition throw {A} (e : Exn) : Js A := fun w => (Throw e, w).

(** [try { body } catch (err) { handler }] *)
Definition try_catch {A} (body : Js A) (handler : Exn -> Js A) : Js A :=
  fun w =>
    match body w with
    | (Normal a, w') => (Normal a, w')
    | (Throw e, w') => handler e w'
    end.

Definition modify (f : World -> World) : Js unit := fun w => (Normal tt, f w).
Definition gets {A} (f : World -> A) : Js A := fun w => (Normal (f w), w).

(** *** What the handlers reach: hooks, toasts, console, DOM, timers *)

Definition setText (v : string) : Js unit := modify (with_text v).
Definition setCopied (v : bool) : Js unit := modify (with_copied v).

(** [setOptions(prev => f(prev))]; [setOptions(o)] is [setOptions (fun _ => o)]. *)
Definition setOptions (f : QRCodeOptions.t -> QRCodeOptions.t) : Js unit :=
  modify (fun w => with_options (f (options w)) w).

Definition toast (k : ToastKind) (msg : string) : Js unit :=
  modify (fun w => with_toasts (toasts w ++ [ {| kind := k; message := msg |} ]) w).

Definition console_error (msg : string) : Js unit :=
  modify (fun w => with_console (console w ++ [msg]) w).

Definition link_click (a : Anchor) : Js unit :=
  modify (fun w => with_clicked (clicked w ++ [a]) w).

Definition setTimeout (cb : Callback) (delay : nat) : Js unit :=
  modify (fun w => with_timeouts (timeouts w ++ [(now w + delay, cb)]) w).

Definition set_call (i : nat) (c : CopyCall) : Js unit :=
  modify (fun w => with_calls (<[i := c]> (calls w)) w).

(** ** [App]: what it renders (lines 297-350) *)

(** Truthiness of a JavaScript string: only [''] is falsy. *)
Definition truthy (s : string) : bool :=
  match s with
  | EmptyString => false
  | String _ _ => true
  end.

Inductive Preview :=
| Placeholder                                   (* "Enter some content to generate a QR code" *)
| QRPanel (backgroundColor : string)            (* the div that carries [qrRef] *)
          (qr : QRCodeCanvasProps.t)            (* <QRCodeCanvas .../> *)
          (copyLabel : string)                  (* the label of the copy button *)
| Blank.                                        (* nothing at all: the page is unmounted *)

Definition qr_props (w : World) : QRCodeCanvasProps.t :=
  QRCodeCanvasProps.mk
    (text w)
    (QRCodeOptions.size (options w))
    (QRCodeOptions.level (options w))
    (QRCodeOptions.bgColor (options w))
    (QRCodeOptions.fgColor (options w))
    (QRCodeOptions.includeMargin (options w)).

(** A rendering capability, as far as failure goes: the props it can
    encode. *)
Definition Encoder : Type := QRCodeCanvasProps.t -> bool.

Section Page.

(** [QRCodeCanvas] of [qrcode.react] is not part of this repository: it
    is a parameter.  Where it cannot encode its props it throws while
    rendering; [App] renders it inside no error boundary and catches
    nothing, so the page is then unmounted: nothing is shown and
    [qrRef.current] is null. *)
Variable encodes : Encoder.

Definition render (w : World) : Preview :=
  if truthy (text w)
  then if encodes (qr_props w)
       then QRPanel (QRCodeOptions.bgColor (options w)) (qr_props w)
                    (if copied w then "Copied!" else "Copy")
       else Blank
  else Placeholder.

(** [qrRef.current?.querySelector('canvas')]: the ref is attached only
    inside the panel, whose one canvas is the one of [QRCodeCanvas]. *)
Definition qrRef_canvas (w : World) : option HTMLCanvasElement :=
  match render w with
  | QRPanel _ qr _ => Some (Canvas qr)
  | Placeholder => None
  | Blank => None
  end.

(** ** [App]: state and handlers (lines 8-108) *)

Definition presetStyles : list PresetStyle.t :=
  [ PresetStyle.mk "Classic" "#FFFFFF" "#000000" "⚫" "white";
    PresetStyle.mk "Ocean" "#E0F2FE" "#0C4A6E" "🌊" "white";
    PresetStyle.mk "Forest" "#D1FAE5" "#064E3B" "🌲" "white";
    PresetStyle.mk "Sunset" "#FEE2E2" "#7F1D1D" "🌅" "white";
    PresetStyle.mk "Night" "#1E293B" "#E2E8F0" "🌙" "black";
    PresetStyle.mk "Purple" "#EDE9FE" "#4C1D95" "💜" "white" ].

(** The argument of [useState<QRCodeOptions>] (lines 23-30). *)
Definition initial_options : QRCodeOptions.t :=
  QRCodeOptions.mk 300 M "#FFFFFF" "#000000" true 4 None.

(** The first render, in a browser with or without a clipboard. *)
Definition initial (clipboard : bool) : World :=
  mkWorld "" false initial_options [] [] [] 0 [] [] clipboard.

Definition handleTextChange (target_value : string) : Js unit :=
  setText target_value.

Definition updateOption (key : QRCodeOptions.Key) (value : QRCodeOptions.Field key)
  : Js unit :=
  setOptions (fun prev => QRCodeOptions.spread prev key value).

Definition applyPreset (preset : PresetStyle.t) : Js unit :=
  setOptions (fun prev =>
    QRCodeOptions.mk
      (QRCodeOptions.size prev) (QRCodeOptions.level prev)
      (PresetStyle.bgColor preset) (PresetStyle.fgColor preset)
      (QRCodeOptions.includeMargin prev) (QRCodeOptions.marginSize prev)
      (QRCodeOptions.imageSettings prev)) ;;
  toast success ("Applied " +:+ PresetStyle.name preset +:+ " style!").

Definition downloadQRCode : Js unit :=
  canvas ← gets qrRef_canvas;
  match canvas with
  | None => toast error "No QR code to download"
  | Some c =>
      link_click {| download := "qrcode.png"; href := png_url c |} ;;
      toast success "QR Code downloaded!"
  end.

(** [navigator.clipboard.write([new ClipboardItem({ 'image/png': blob })])]:
    evaluating it throws where the browser has no clipboard. *)
Definition navigator_clipboard_write (blob : Blob) : Js unit :=
  available ← gets clipboard_available;
  if (available : bool) then js_ret tt
  else throw (TypeError "navigator.clipboard is undefined").

(** The [catch] block of [copyToClipboard]. *)
Definition copy_catch (err : Exn) : Js unit :=
  console_error "Failed to copy:" ;;
  toast error "Copy not supported in this browser".

(** [copyToClipboard] up to its first [await]. *)
Definition copyToClipboard : Js unit :=
  canvas ← gets qrRef_canvas;
  match canvas with
  | None => toast error "No QR code to copy"
  | Some c => modify (fun w => with_calls (calls w ++ [AwaitBlob c]) w)
  end.

(** Call [i] resumes with the blob of its canvas and starts the write. *)
Definition copy_after_blob (i : nat) (canvas : HTMLCanvasElement) : Js unit :=
  try_catch
    (navigator_clipboard_write (png_blob canvas) ;;
     set_call i (AwaitWrite (png_blob canvas)))
    (fun err => copy_catch err ;; set_call i Returned).

(** Call [i] resumes when the write promise settles: [ok] says whether
    it resolved or rejected. *)
Definition copy_after_write (i : nat) (ok : bool) : Js unit :=
  try_catch
    ((if ok then js_ret tt else throw (NotAllowedError "Write permission denied.")) ;;
     setCopied true ;;
     toast success "Copied to clipboard!" ;;
     setTimeout clear_copied 2000)
    copy_catch ;;
  set_call i Returned.

Definition resetOptions : Js unit :=
  setOptions (fun _ => QRCodeOptions.mk 300 M "#FFFFFF" "#000000" true 4 None) ;;
  setText "" ;;
  toast success "Reset to defaults".

(** ** The event loop *)

Definition run_callback (cb : Callback) : Js unit :=
  match cb with
  | clear_copied => setCopied false
  end.

Fixpoint run_callbacks (cbs : list (nat * Callback)) : Js unit :=
  match cbs with
  | [] => js_ret tt
  | (_, cb) :: rest => run_callback cb ;; run_callbacks rest
  end.

(** [dt] milliseconds pass; the timers that are due by then run. *)
Definition elapse (dt : nat) : Js unit :=
  modify (fun w => with_now (now w + dt) w) ;;
  due ← gets (fun w => filter (fun t => t.1 <= now w) (timeouts w));
  modify (fun w => with_timeouts (filter (fun t => now w < t.1) (timeouts w)) w) ;;
  run_callbacks due.

Inductive Event :=
| on_handleTextChange (v : string)
| on_updateOption (k : QRCodeOptions.Key) (v : QRCodeOptions.Field k)
| on_applyPreset (p : PresetStyle.t)
| on_resetOptions
| on_downloadQRCode
| on_copyToClipboard
| on_blob (i : nat)                  (* toBlob calls back for call [i] *)
| on_write_settled (i : nat) (ok : bool)   (* the write of call [i] resolves / rejects *)
| on_elapse (dt : nat).

Definition handle (e : Event) : Js unit :=
  match e with
  | on_handleTextChange v => handleTextChange v
  | on_updateOption k v => updateOption k v
  | on_applyPreset p => applyPreset p
  | on_resetOptions => resetOptions
  | on_downloadQRCode => downloadQRCode
  | on_copyToClipboard => copyToClipboard
  | on_blob i =>
      c ← gets (fun w => calls w !! i);
      match c with
      | Some (AwaitBlob canvas) => copy_after_blob i canvas
      | _ => js_ret tt
      end
  | on_write_settled i ok =>
      c ← gets (fun w => calls w !! i);
      match c with
      | Some (AwaitWrite _) => copy_after_write i ok
      | _ => js_ret tt
      end
  | on_elapse dt => elapse dt
  end.

Definition step (e : Event) (w : World) : World := (handle e w).2.

Definition exec (es : list Event) (w : World) : World :=
  fold_left (fun w e => step e w) es w.

(** ** Vocabulary of the statements *)

(** The events that belong to the two export actions: a call of
    [downloadQRCode], a call of [copyToClipboard], and the resumptions of
    a suspended [copyToClipboard]. *)
Definition is_export (e : Event) : bool :=
  match e with
  | on_downloadQRCode | on_copyToClipboard | on_blob _ | on_write_settled _ _ => true
  | _ => false
  end.

(** The milliseconds that pass during a list of events. *)
Fixpoint elapsed (es : list Event) : nat :=
  match es with
  | [] => 0
  | on_elapse dt :: rest => dt + elapsed rest
  | _ :: rest => elapsed rest
  end.

(** The events at which a clipboard write resolves. *)
Definition is_resolution (e : Event) : bool :=
  match e with
  | on_write_settled _ true => true
  | _ => false
  end.

(** The three error notifications of the source, and what a failed
    [copyToClipboard] call [i] leaves: its notification, the call
    returned, and neither the indicator nor the timers touched. *)
Definition no_download_toast : Toast :=
  {| kind := error; message := "No QR code to download" |}.
Definition no_copy_toast : Toast :=
  {| kind := error; message := "No QR code to copy" |}.
Definition unsupported_toast : Toast :=
  {| kind := error; message := "Copy not supported in this browser" |}.

Definition copy_unsupported (i : nat) (w w' : World) : Prop :=
  toasts w' = (toasts w ++ [unsupported_toast])%list
  /\ copied w' = copied w
  /\ timeouts w' = timeouts w
  /\ calls w' = <[i := Returned]> (calls w).

(** The reading of "an encoding failure is surfaced": whenever an event
    leaves a non-empty text that the capability cannot encode under the
    props handed to it, that event has emitted an error notification. *)
Definition emitted (e : Event) (w : World) : list Toast :=
  drop (length (toasts w)) (toasts (step e w)).

Definition encoding_failure_surfaced : Prop :=
  forall (w : World) (e : Event),
    text (step e w) <> "" ->
    encodes (qr_props (step e w)) = false ->
    exists t : Toast, t ∈ emitted e w /\ kind t = error.

(** The reading of "a surface exists if and only if the text is
    non-empty". *)
Definition surface_iff_nonempty_text : Prop :=
  forall w : World, is_Some (qrRef_canvas w) <-> text w <> "".

(** A sample capability: the byte-mode capacity of the largest QR symbol
    (version 40) at each error-correction level. *)
Definition version_40_bytes (l : ErrorCorrectionLevel) : nat :=
  match l with
  | L => 2953
  | M => 2331
  | Q => 1663
  | H => 1273
  end.

Definition fits_version_40 : Encoder :=
  fun p =>
    Nat.leb (String.length (QRCodeCanvasProps.value p))
            (version_40_bytes (QRCodeCanvasProps.level p)).

(** A text of 3000 characters. *)
Definition long_text : string :=
  String.string_of_list_ascii (replicate 3000 "a"%char).

Definition known_error (t : Toast) : Prop :=
  t = no_download_toast \/ t = no_copy_toast \/ t = unsupported_toast.

(** The events of the option editor and of the text area. *)
Definition is_edit (e : Event) : bool :=
  match e with
  | on_handleTextChange _ | on_updateOption _ _ => true
  | _ => false
  end.



(** Two copies of the same code, 1500 ms apart; the trace stops while the
    second write is in flight. *)
Definition two_copies : list Event :=
  [ on_handleTextChange "hi";
    on_copyToClipboard; on_blob 0; on_write_settled 0 true;
    on_elapse 1500;
    on_copyToClipboard; on_blob 1 ].


(** ** The controls of the page (lines 143-291, 316-333) *)

(** The margin switch (line 279):
    [updateOption('includeMargin', !options.includeMargin)]. *)
Definition toggleMargin : Js unit :=
  current ← gets options;
  updateOption QRCodeOptions.key_includeMargin
               (negb (QRCodeOptions.includeMargin current)).

(** What the size slider can deliver: [min="200" max="500" step="10"]. *)
Definition slider_value (v : Z) : bool :=
  ((200 <=? v) && (v <=? 500) && (v mod 10 =? 0))%Z.

Definition preset_eqb (p q : PresetStyle.t) : bool :=
  String.eqb (PresetStyle.name p) (PresetStyle.name q)
  && String.eqb (PresetStyle.bgColor p) (PresetStyle.bgColor q)
  && String.eqb (PresetStyle.fgColor p) (PresetStyle.fgColor q)
  && String.eqb (PresetStyle.icon p) (PresetStyle.icon q)
  && String.eqb (PresetStyle.color p) (PresetStyle.color q).

(** The events the rendered page offers in a state: the text area and
    "Reset all" always; one button per catalogue preset; the slider
    within its bounds; the two color inputs and the level select; the
    margin switch, which negates the current value; no control for
    [marginSize] or [imageSettings]; and the download and copy buttons
    only inside the panel, that is when the text is truthy and the page
    is mounted.  Callbacks of the browser (blob, write, timers) are not
    gated, and the gates of the other controls are not narrowed to the
    mounted page. *)
Definition offered (e : Event) (w : World) : bool :=
  match e with
  | on_handleTextChange _ => true
  | on_updateOption k v =>
      match k return QRCodeOptions.Field k -> bool with
      | QRCodeOptions.key_size => slider_value
      | QRCodeOptions.key_level => fun _ => true
      | QRCodeOptions.key_bgColor => fun _ => true
      | QRCodeOptions.key_fgColor => fun _ => true
      | QRCodeOptions.key_includeMargin =>
          fun v => Bool.eqb v (negb (QRCodeOptions.includeMargin (options w)))
      | QRCodeOptions.key_marginSize => fun _ => false
      | QRCodeOptions.key_imageSettings => fun _ => false
      end v
  | on_applyPreset p => existsb (preset_eqb p) presetStyles
  | on_resetOptions => true
  | on_downloadQRCode => match render w with QRPanel _ _ _ => true | _ => false end
  | on_copyToClipboard => match render w with QRPanel _ _ _ => true | _ => false end
  | on_blob _ => true
  | on_write_settled _ _ => true
  | on_elapse _ => true
  end.

(** A session: every event is offered by the page as it stands. *)
Fixpoint session (es : list Event) (w : World) : bool :=
  match es with
  | [] => true
  | e :: rest => offered e w && session rest (step e w)
  end.

(** What the controls can reach of the configuration. *)
Definition within_controls (o : QRCodeOptions.t) : Prop :=
  (200 <= QRCodeOptions.size o <= 500)%Z
  /\ (QRCodeOptions.size o mod 10 = 0)%Z
  /\ QRCodeOptions.marginSize o = 4%Z
  /\ QRCodeOptions.imageSettings o = None.

(** The suspended call an event resumes, if any. *)
Definition resumes (e : Event) : option nat :=
  match e with
  | on_blob i => Some i
  | on_write_settled i _ => Some i
  | _ => None
  end.

(** The canvas a suspended call holds. *)
Definition call_canvas (c : CopyCall) : option HTMLCanvasElement :=
  match c with
  | AwaitBlob canvas => Some canvas
  | AwaitWrite (png_blob canvas) => Some canvas
  | Returned => None
  end.

Definition shows_text (c : HTMLCanvasElement) : Prop :=
  QRCodeCanvasProps.value (drawn_from c) <> "".

(** Every anchor clicked so far saves a code of some text as
    [qrcode.png], and every suspended copy holds a code of some text. *)
Definition exports_of_codes (w : World) : Prop :=
  Forall (fun a => download a = "qrcode.png"
                   /\ match href a with png_url c => shows_text c end)
         (clicked w)
  /\ Forall (fun c => match call_canvas c with
                      | Some canvas => shows_text canvas
                      | None => True
                      end)
            (calls w).

(** The events that can write each [useState] cell. *)
Definition writes_text (e : Event) : bool :=
  match e with
  | on_handleTextChange _ | on_resetOptions => true
  | _ => false
  end.

Definition writes_options (e : Event) : bool :=
  match e with
  | on_updateOption _ _ | on_applyPreset _ | on_resetOptions => true
  | _ => false
  end.

Definition writes_copied (e : Event) : bool :=
  match e with
  | on_write_settled _ true | on_elapse _ => true
  | _ => false
  end.

(** Every pending timer is due after now and within [T]; and while the
    indicator is on, a timer is pending. *)
Definition clearing_by (T : nat) (w : World) : Prop :=
  Forall (fun t => now w < t.1 /\ t.1 <= T) (timeouts w)
  /\ (copied w = true -> timeouts w <> []).

(** The state a computation leaves behind. *)
Definition run {A} (m : Js A) (w : World) : World := (m w).2.

(** ** The configuration store *)

Section ConfigurationStore.
Variable w : World.

Lemma updateOption_run key value :
  updateOption key value w
  = (Normal tt, with_options (QRCodeOptions.spread (options w) key value) w).
Proof. reflexivity. Qed.

Lemma applyPreset_run preset :
  applyPreset preset w
  = (Normal tt,
     with_toasts
       (toasts w ++ [ {| kind := success;
                         message := "Applied " +:+ PresetStyle.name preset +:+ " style!" |} ])
       (with_options
          (QRCodeOptions.mk
             (QRCodeOptions.size (options w)) (QRCodeOptions.level (options w))
             (PresetStyle.bgColor preset) (PresetStyle.fgColor preset)
             (QRCodeOptions.includeMargin (options w))
             (QRCodeOptions.marginSize (options w))
             (QRCodeOptions.imageSettings (options w))) w)).
Proof. reflexivity. Qed.

Lemma resetOptions_run :
  resetOptions w
  = (Normal tt,
     with_toasts (toasts w ++ [ {| kind := success; message := "Reset to defaults" |} ])
       (with_text "" (with_options initial_options w))).
Proof. reflexivity. Qed.
End ConfigurationStore.

(** C1. [applyPreset preset] sets [bgColor] and [fgColor] to the preset's
    two colors and leaves [size], [level], [includeMargin], [marginSize]
    (and [imageSettings]) and the text as they were, from every state. *)
Theorem applyPreset_changes_only_colors (preset : PresetStyle.t) (w : World) :
  QRCodeOptions.bgColor (options (run (applyPreset preset) w)) = PresetStyle.bgColor preset
  /\ QRCodeOptions.fgColor (options (run (applyPreset preset) w)) = PresetStyle.fgColor preset
  /\ QRCodeOptions.size (options (run (applyPreset preset) w)) = QRCodeOptions.size (options w)
  /\ QRCodeOptions.level (options (run (applyPreset preset) w)) = QRCodeOptions.level (options w)
  /\ QRCodeOptions.includeMargin (options (run (applyPreset preset) w))
     = QRCodeOptions.includeMargin (options w)
  /\ QRCodeOptions.marginSize (options (run (applyPreset preset) w))
     = QRCodeOptions.marginSize (options w)
  /\ QRCodeOptions.imageSettings (options (run (applyPreset preset) w))
     = QRCodeOptions.imageSettings (options w)
  /\ text (run (applyPreset preset) w) = text w.
Proof.
  unfold run. rewrite applyPreset_run. cbn. repeat split.
Qed.

(** C2. From every prior state [resetOptions] leaves exactly the default
    configuration [{ size: 300, level: 'M', bgColor: '#FFFFFF',
    fgColor: '#000000', includeMargin: true, marginSize: 4 }], which is
    the configuration of the first render, and the empty text. *)
Theorem resetOptions_restores_defaults (w : World) (clipboard : bool) :
  options (run resetOptions w)
  = QRCodeOptions.mk 300 M "#FFFFFF" "#000000" true 4 None
  /\ options (run resetOptions w) = options (initial clipboard)
  /\ text (run resetOptions w) = "".
Proof.
  unfold run. rewrite resetOptions_run. cbn. repeat split.
Qed.

(** C3. [updateOption key value] leaves a configuration whose field [key]
    is [value] and whose every other field is as before (and does not
    touch the text): a shallow merge of one binding. *)
Theorem updateOption_shallow_merge
    (key : QRCodeOptions.Key) (value : QRCodeOptions.Field key) (w : World) :
  QRCodeOptions.get key (options (run (updateOption key value) w)) = value
  /\ (forall other : QRCodeOptions.Key,
        other <> key ->
        QRCodeOptions.get other (options (run (updateOption key value) w))
        = QRCodeOptions.get other (options w))
  /\ text (run (updateOption key value) w) = text w.
Proof.
  unfold run. rewrite updateOption_run. cbn.
  split; [ destruct key; reflexivity | split; [ | reflexivity ] ].
  intros other Hne. destruct key, other; try reflexivity; congruence.
Qed.

Lemma updateOption_shallow_merge_witness :
  QRCodeOptions.size
    (options (run (updateOption QRCodeOptions.key_size 250%Z) (initial true))) = 250%Z
  /\ QRCodeOptions.level
       (options (run (updateOption QRCodeOptions.key_size 250%Z) (initial true))) = M.
Proof.
  destruct (updateOption_shallow_merge QRCodeOptions.key_size 250%Z (initial true))
    as (Hkey & Hothers & _).
  split.
  - exact Hkey.
  - apply (Hothers QRCodeOptions.key_level). discriminate.
Defined.

(** The "Night" entry of the catalogue, applied to the first render. *)
Example applyPreset_Night :
  forall night : PresetStyle.t,
    presetStyles !! 4 = Some night ->
    options (run (applyPreset night) (initial true))
    = QRCodeOptions.mk 300 M "#1E293B" "#E2E8F0" true 4 None
    /\ toasts (run (applyPreset night) (initial true))
       = [ {| kind := success; message := "Applied Night style!" |} ].
Proof.
  intros night Hnight. injection Hnight as <-. split; reflexivity.
Qed.

(** C9. Applying the same preset twice in succession leaves the same
    configuration (and text) as applying it once. *)
Theorem applyPreset_idempotent (preset : PresetStyle.t) (w : World) :
  options (run (applyPreset preset) (run (applyPreset preset) w))
  = options (run (applyPreset preset) w)
  /\ text (run (applyPreset preset) (run (applyPreset preset) w))
     = text (run (applyPreset preset) w).
Proof.
  unfold run. rewrite !applyPreset_run. cbn. split; reflexivity.
Qed.

(** ** The preview *)

(** C10. Two states with the same text whose configurations differ only
    in [marginSize] hand the same props (text, size, level, bgColor,
    fgColor, includeMargin) to [QRCodeCanvas], so the same canvas is
    mounted, and any rendering capability that is a function of the props
    draws the same surface for both. *)
Theorem marginSize_not_rendered (w1 w2 : World) :
  text w1 = text w2 ->
  (forall k : QRCodeOptions.Key,
      k <> QRCodeOptions.key_marginSize ->
      QRCodeOptions.get k (options w1) = QRCodeOptions.get k (options w2)) ->
  qr_props w1 = qr_props w2
  /\ qrRef_canvas w1 = qrRef_canvas w2
  /\ forall (Surface : Type) (draw : QRCodeCanvasProps.t -> Surface),
       draw (qr_props w1) = draw (qr_props w2).
Proof.
  intros Htext Hfields.
  assert (Hprops : qr_props w1 = qr_props w2).
  { unfold qr_props. rewrite Htext.
    pose proof (Hfields QRCodeOptions.key_size) as Hsize.
    pose proof (Hfields QRCodeOptions.key_level) as Hlevel.
    pose proof (Hfields QRCodeOptions.key_bgColor) as Hbg.
    pose proof (Hfields QRCodeOptions.key_fgColor) as Hfg.
    pose proof (Hfields QRCodeOptions.key_includeMargin) as Hmargin.
    cbn in Hsize, Hlevel, Hbg, Hfg, Hmargin.
    rewrite Hsize, Hlevel, Hbg, Hfg, Hmargin by discriminate.
    reflexivity. }
  split; [ exact Hprops | split ].
  - unfold qrRef_canvas, render. rewrite Htext, Hprops.
    destruct (truthy (text w2)), (encodes (qr_props w2)); reflexivity.
  - intros Surface draw. rewrite Hprops. reflexivity.
Qed.

Lemma truthy_spec (s : string) : truthy s = true <-> s <> "".
Proof. destruct s; cbn; split; congruence. Qed.

Lemma qrRef_canvas_empty (w : World) : text w = "" -> qrRef_canvas w = None.
Proof. intros H. unfold qrRef_canvas, render. rewrite H. reflexivity. Qed.

Lemma qrRef_canvas_drawn (w : World) :
  text w <> "" -> encodes (qr_props w) = true ->
  qrRef_canvas w = Some (Canvas (qr_props w)).
Proof.
  intros Htext Hdraws. apply truthy_spec in Htext. unfold qrRef_canvas, render.
  rewrite Htext, Hdraws. reflexivity.
Qed.

Lemma qrRef_canvas_blank (w : World) :
  encodes (qr_props w) = false -> qrRef_canvas w = None.
Proof.
  intros Hfails. unfold qrRef_canvas, render. rewrite Hfails.
  destruct (truthy (text w)); reflexivity.
Qed.

Lemma qrRef_canvas_Some (w : World) (c : HTMLCanvasElement) :
  qrRef_canvas w = Some c ->
  text w <> "" /\ encodes (qr_props w) = true /\ c = Canvas (qr_props w).
Proof.
  unfold qrRef_canvas, render. intros Hc.
  destruct (truthy (text w)) eqn:Htext; [ | discriminate Hc ].
  destruct (encodes (qr_props w)); [ | discriminate Hc ].
  apply truthy_spec in Htext. repeat split; [ exact Htext | congruence ].
Qed.

(** C8, amended.  With the empty text no canvas is mounted and the
    preview is the placeholder.  A canvas is mounted if and only if the
    text is non-empty and the rendering capability can encode it (so a
    canvas is mounted only for a non-empty text); for a non-empty text
    that it cannot encode, the page is blank. *)
Theorem surface_iff_text (w : World) :
  (text w = "" -> qrRef_canvas w = None /\ render w = Placeholder)
  /\ (is_Some (qrRef_canvas w) <-> text w <> "" /\ encodes (qr_props w) = true)
  /\ (text w <> "" -> encodes (qr_props w) = false ->
      qrRef_canvas w = None /\ render w = Blank).
Proof.
  split; [ | split ].
  - intros H. split; [ now apply qrRef_canvas_empty | ].
    unfold render. rewrite H. reflexivity.
  - split.
    + intros [c Hc]. apply qrRef_canvas_Some in Hc as (Htext & Hdraws & _).
      split; assumption.
    + intros [Htext Hdraws]. rewrite (qrRef_canvas_drawn w Htext Hdraws).
      eexists. reflexivity.
  - intros Htext Hfails. split; [ now apply qrRef_canvas_blank | ].
    apply truthy_spec in Htext. unfold render. rewrite Htext, Hfails. reflexivity.
Qed.

(** ** The export actions *)

Section ExportActions.
Variable w : World.

Lemma downloadQRCode_no_canvas :
  qrRef_canvas w = None ->
  downloadQRCode w
  = (Normal tt,
     with_toasts (toasts w ++ [ {| kind := error; message := "No QR code to download" |} ]) w).
Proof. intros H. unfold downloadQRCode, mbind, Js_bind, js_bind, gets. rewrite H. reflexivity. Qed.

Lemma downloadQRCode_canvas c :
  qrRef_canvas w = Some c ->
  downloadQRCode w
  = (Normal tt,
     with_toasts (toasts w ++ [ {| kind := success; message := "QR Code downloaded!" |} ])
       (with_clicked (clicked w ++ [ {| download := "qrcode.png"; href := png_url c |} ]) w)).
Proof. intros H. unfold downloadQRCode, mbind, Js_bind, js_bind, gets. rewrite H. reflexivity. Qed.

Lemma copyToClipboard_no_canvas :
  qrRef_canvas w = None ->
  copyToClipboard w
  = (Normal tt,
     with_toasts (toasts w ++ [ {| kind := error; message := "No QR code to copy" |} ]) w).
Proof. intros H. unfold copyToClipboard, mbind, Js_bind, js_bind, gets. rewrite H. reflexivity. Qed.

Lemma copyToClipboard_canvas c :
  qrRef_canvas w = Some c ->
  copyToClipboard w = (Normal tt, with_calls (calls w ++ [AwaitBlob c]) w).
Proof. intros H. unfold copyToClipboard, mbind, Js_bind, js_bind, gets. rewrite H. reflexivity. Qed.

Lemma copy_after_blob_unavailable i c :
  clipboard_available w = false ->
  copy_after_blob i c w
  = (Normal tt,
     with_calls (<[i := Returned]> (calls w))
       (with_toasts
          (toasts w ++ [ {| kind := error; message := "Copy not supported in this browser" |} ])
          (with_console (console w ++ ["Failed to copy:"]) w))).
Proof.
  intros H.
  unfold copy_after_blob, try_catch, navigator_clipboard_write,
    mbind, Js_bind, js_bind, gets.
  rewrite H. reflexivity.
Qed.

Lemma copy_after_blob_available i c :
  clipboard_available w = true ->
  copy_after_blob i c w
  = (Normal tt, with_calls (<[i := AwaitWrite (png_blob c)]> (calls w)) w).
Proof.
  intros H.
  unfold copy_after_blob, try_catch, navigator_clipboard_write,
    mbind, Js_bind, js_bind, gets.
  rewrite H. reflexivity.
Qed.

Lemma copy_after_write_rejected i :
  copy_after_write i false w
  = (Normal tt,
     with_calls (<[i := Returned]> (calls w))
       (with_toasts
          (toasts w ++ [ {| kind := error; message := "Copy not supported in this browser" |} ])
          (with_console (console w ++ ["Failed to copy:"]) w))).
Proof. reflexivity. Qed.

Lemma copy_after_write_resolved i :
  copy_after_write i true w
  = (Normal tt,
     with_calls (<[i := Returned]> (calls w))
       (with_timeouts (timeouts w ++ [(now w + 2000, clear_copied)])
          (with_toasts
             (toasts w ++ [ {| kind := success; message := "Copied to clipboard!" |} ])
             (with_copied true w)))).
Proof. reflexivity. Qed.
End ExportActions.

Lemma run_callbacks_run (cbs : list (nat * Callback)) (w : World) :
  run_callbacks cbs w
  = (Normal tt, match cbs with [] => w | _ :: _ => with_copied false w end).
Proof.
  revert w. induction cbs as [ | [due cb] rest IH ]; intros w; [ reflexivity | ].
  destruct cb. cbn [run_callbacks run_callback].
  change ((setCopied false ;; run_callbacks rest) w)
    with (run_callbacks rest (with_copied false w)).
  rewrite IH. destruct rest; reflexivity.
Qed.

Lemma elapse_run (dt : nat) (w : World) :
  elapse dt w
  = (Normal tt,
     let later := with_timeouts (filter (fun t => now w + dt < t.1) (timeouts w))
                                (with_now (now w + dt) w) in
     match filter (fun t => t.1 <= now w + dt) (timeouts w) with
     | [] => later
     | _ :: _ => with_copied false later
     end).
Proof.
  unfold elapse.
  change ((modify (fun w => with_now (now w + dt) w) ;;
           due ← gets (fun w => filter (fun t => t.1 <= now w) (timeouts w));
           modify (fun w => with_timeouts (filter (fun t => now w < t.1) (timeouts w)) w) ;;
           run_callbacks due) w)
    with (run_callbacks (filter (fun t => t.1 <= now w + dt) (timeouts w))
            (with_timeouts (filter (fun t => now w + dt < t.1) (timeouts w))
               (with_now (now w + dt) w))).
  rewrite run_callbacks_run. reflexivity.
Qed.

(** *** One event at a time *)

Lemma handle_blob (i : nat) (w : World) :
  handle (on_blob i) w
  = match calls w !! i with
    | Some (AwaitBlob canvas) => copy_after_blob i canvas w
    | _ => (Normal tt, w)
    end.
Proof.
  unfold handle, mbind, Js_bind, js_bind, gets.
  destruct (calls w !! i) as [ [ c | b | ] | ]; reflexivity.
Qed.

Lemma handle_write_settled (i : nat) (ok : bool) (w : World) :
  handle (on_write_settled i ok) w
  = match calls w !! i with
    | Some (AwaitWrite _) => copy_after_write i ok w
    | _ => (Normal tt, w)
    end.
Proof.
  unfold handle, mbind, Js_bind, js_bind, gets.
  destruct (calls w !! i) as [ [ c | b | ] | ]; reflexivity.
Qed.

(** Bring [handle e w] to an explicit pair of a completion and a world,
    by cases on the event and on what the handler reads. *)
Ltac handle_cases e w :=
  let c := fresh "c" in
  let E := fresh "E" in
  destruct e as [ ? | ? ? | ? | | | | ? | ? [ | ] | ? ];
  [ cbn [handle]
  | cbn [handle]; rewrite updateOption_run
  | cbn [handle]; rewrite applyPreset_run
  | cbn [handle]; rewrite resetOptions_run
  | cbn [handle]; destruct (qrRef_canvas w) as [ c | ] eqn:E;
    [ rewrite (downloadQRCode_canvas w c E) | rewrite (downloadQRCode_no_canvas w E) ]
  | cbn [handle]; destruct (qrRef_canvas w) as [ c | ] eqn:E;
    [ rewrite (copyToClipboard_canvas w c E) | rewrite (copyToClipboard_no_canvas w E) ]
  | rewrite handle_blob;
    destruct (calls w !! _) as [ [ c | c | ] | ] eqn:E; [ | | | ];
    [ destruct (clipboard_available w) eqn:?;
      [ rewrite copy_after_blob_available by assumption
      | rewrite copy_after_blob_unavailable by assumption ]
    | | | ]
  | rewrite handle_write_settled;
    destruct (calls w !! _) as [ [ c | c | ] | ] eqn:E; [ | | | ];
    [ | rewrite copy_after_write_resolved | | ]
  | rewrite handle_write_settled;
    destruct (calls w !! _) as [ [ c | c | ] | ] eqn:E; [ | | | ];
    [ | rewrite copy_after_write_rejected | | ]
  | cbn [handle]; rewrite elapse_run ].

(** No handler, and no resumption of [copyToClipboard], throws to its
    caller. *)
Lemma handle_completes (e : Event) (w : World) : (handle e w).1 = Normal tt.
Proof.
  handle_cases e w; reflexivity.
Qed.

(** The export actions leave the configuration and the text alone. *)
Lemma export_frame (e : Event) (w : World) :
  is_export e = true ->
  options (step e w) = options w /\ text (step e w) = text w.
Proof.
  intros He. unfold step.
  handle_cases e w; try discriminate He; split; reflexivity.
Qed.

(** C4. With the empty text there is no canvas; and whenever there is no
    canvas, [downloadQRCode] and [copyToClipboard] each return normally
    after adding one error notification ("No QR code to download", "No QR
    code to copy"), without clicking an anchor or suspending a call; and
    in every case, failing or not, no step of either action changes the
    configuration or the text, or throws. *)
Theorem export_without_surface (w : World) :
  (text w = "" -> qrRef_canvas w = None)
  /\ (qrRef_canvas w = None ->
        (downloadQRCode w).1 = Normal tt
        /\ toasts (run downloadQRCode w) = toasts w ++ [no_download_toast]
        /\ clicked (run downloadQRCode w) = clicked w
        /\ (copyToClipboard w).1 = Normal tt
        /\ toasts (run copyToClipboard w) = toasts w ++ [no_copy_toast]
        /\ calls (run copyToClipboard w) = calls w)
  /\ (forall e : Event,
        is_export e = true ->
        (handle e w).1 = Normal tt
        /\ options (step e w) = options w
        /\ text (step e w) = text w).
Proof.
  split; [ apply qrRef_canvas_empty | split ].
  - intros Hnone. unfold run.
    rewrite (downloadQRCode_no_canvas w Hnone), (copyToClipboard_no_canvas w Hnone).
    repeat split.
  - intros e He. split; [ apply handle_completes | apply export_frame, He ].
Qed.

(** C6. A [copyToClipboard] call made while a canvas is mounted is
    suspended holding that canvas, with no notification yet.  If the
    browser has no clipboard when the call resumes with its blob, or if
    the write it awaits rejects, the call ends with the error
    notification "Copy not supported in this browser", returns normally,
    and leaves the copied indicator and the timers as they were. *)
Theorem copyToClipboard_unsupported (w : World) (i : nat) :
  (forall canvas : HTMLCanvasElement,
      qrRef_canvas w = Some canvas ->
      calls (step on_copyToClipboard w) = calls w ++ [AwaitBlob canvas]
      /\ toasts (step on_copyToClipboard w) = toasts w
      /\ copied (step on_copyToClipboard w) = copied w)
  /\ (forall canvas : HTMLCanvasElement,
        calls w !! i = Some (AwaitBlob canvas) ->
        clipboard_available w = false ->
        (handle (on_blob i) w).1 = Normal tt
        /\ copy_unsupported i w (step (on_blob i) w))
  /\ (forall blob : Blob,
        calls w !! i = Some (AwaitWrite blob) ->
        (handle (on_write_settled i false) w).1 = Normal tt
        /\ copy_unsupported i w (step (on_write_settled i false) w)).
Proof.
  split; [ | split ].
  - intros canvas Hcanvas. unfold step. cbn [handle].
    rewrite (copyToClipboard_canvas w canvas Hcanvas). repeat split.
  - intros canvas Hcall Hclip. split; [ apply handle_completes | ].
    unfold step. rewrite handle_blob, Hcall, copy_after_blob_unavailable by exact Hclip.
    repeat split.
  - intros blob Hcall. split; [ apply handle_completes | ].
    unfold step. rewrite handle_write_settled, Hcall, copy_after_write_rejected.
    repeat split.
Qed.

(** *** Notifications *)

(** An event emits at most one notification, and an error only from the
    three places of the source that raise one. *)
Lemma step_toasts (e : Event) (w : World) :
  toasts (step e w) = toasts w
  \/ (exists t, toasts (step e w) = toasts w ++ [t] /\ (kind t = error -> known_error t)).
Proof.
  unfold step, known_error.
  handle_cases e w; cbn;
    try (left; reflexivity);
    try (destruct (filter _ _); left; reflexivity);
    right; eexists; (split; [ reflexivity | ]); cbn; intros Hk;
    try discriminate Hk; auto.
Qed.

Lemma exec_snoc (es : list Event) (e : Event) (w : World) :
  exec (es ++ [e]) w = step e (exec es w).
Proof. unfold exec. rewrite fold_left_app. reflexivity. Qed.

Lemma exec_app (es1 es2 : list Event) (w : World) :
  exec (es1 ++ es2) w = exec es2 (exec es1 w).
Proof. unfold exec. apply fold_left_app. Qed.

Lemma exec_cons (e : Event) (es : list Event) (w : World) :
  exec (e :: es) w = exec es (step e w).
Proof. reflexivity. Qed.

Lemma exec_known_errors (es : list Event) (w : World) :
  (forall t, t ∈ toasts w -> kind t = error -> known_error t) ->
  forall t, t ∈ toasts (exec es w) -> kind t = error -> known_error t.
Proof.
  revert w. induction es as [ | e es IH ]; intros w Hw; [ exact Hw | ].
  rewrite exec_cons. apply IH. intros t Ht Hk.
  destruct (step_toasts e w) as [ Heq | (t' & Heq & Hknown) ]; rewrite Heq in Ht.
  - now apply Hw.
  - apply elem_of_app in Ht as [ Ht | Ht ]; [ now apply Hw | ].
    apply list_elem_of_singleton in Ht. subst t'. now apply Hknown.
Qed.

(** C7, amended.  When an event leaves a non-empty text that the
    rendering capability cannot encode, [App] surfaces nothing of its
    own: the page is left blank, with no canvas; if the event was an edit
    of the text or of an option it has emitted no notification; and the
    only error notifications [App] ever emits are "No QR code to
    download", "No QR code to copy" and "Copy not supported in this
    browser". *)
Theorem encoding_failure_left_to_capability (w : World) (e : Event) :
  text (step e w) <> "" ->
  encodes (qr_props (step e w)) = false ->
  render (step e w) = Blank
  /\ qrRef_canvas (step e w) = None
  /\ (is_edit e = true -> toasts (step e w) = toasts w)
  /\ forall (clipboard : bool) (es : list Event) (t : Toast),
       t ∈ toasts (exec es (initial clipboard)) -> kind t = error -> known_error t.
Proof.
  intros Htext Hfails. split; [ | split; [ | split ] ].
  - apply truthy_spec in Htext. unfold render. rewrite Htext, Hfails. reflexivity.
  - apply qrRef_canvas_blank, Hfails.
  - intros He. destruct e; try discriminate He; reflexivity.
  - intros clipboard es. apply exec_known_errors.
    intros t Ht. apply elem_of_nil in Ht. destruct Ht.
Qed.

(** *** The copied indicator and its timers *)

Section Filter.
Context {A : Type} (P : A -> Prop) `{!forall x, Decision (P x)}.


Lemma filter_all (l : list A) : Forall P l -> filter P l = l.
Proof.
  induction 1 as [ | x l Hx _ IH ]; [ reflexivity | ].
  rewrite filter_cons_True by exact Hx. now rewrite IH.
Qed.

End Filter.

Lemma step_clock (e : Event) (w : World) :
  now (step e w) = now w + elapsed [e].
Proof.
  unfold step.
  handle_cases e w; cbn; try lia.
  destruct (filter _ _); cbn; lia.
Qed.

Lemma exec_clock (es : list Event) (w : World) :
  now (exec es w) = now w + elapsed es.
Proof.
  revert w. induction es as [ | e es IH ]; intros w; [ cbn; lia | ].
  rewrite exec_cons, IH, step_clock. destruct e; cbn; lia.
Qed.












(** ** Further properties: the configuration store *)

Lemma world_eta (w : World) :
  mkWorld (text w) (copied w) (options w) (toasts w) (console w) (clicked w)
          (now w) (timeouts w) (calls w) (clipboard_available w) = w.
Proof. destruct w. reflexivity. Qed.

Lemma spread_get (k : QRCodeOptions.Key) (o : QRCodeOptions.t) :
  QRCodeOptions.spread o k (QRCodeOptions.get k o) = o.
Proof. destruct o, k; reflexivity. Qed.

(** Writing a field twice keeps the last value only: the state after
    [updateOption key first] then [updateOption key last] is the state
    after [updateOption key last] alone. *)
Theorem updateOption_last_wins
    (key : QRCodeOptions.Key) (first last : QRCodeOptions.Field key) (w : World) :
  run (updateOption key last) (run (updateOption key first) w)
  = run (updateOption key last) w.
Proof.
  unfold run. rewrite !updateOption_run. cbn.
  revert first last. destruct key; reflexivity.
Qed.

(** Writes to two different fields commute. *)
Theorem updateOption_commutes
    (k1 k2 : QRCodeOptions.Key)
    (v1 : QRCodeOptions.Field k1) (v2 : QRCodeOptions.Field k2) (w : World) :
  k1 <> k2 ->
  run (updateOption k1 v1) (run (updateOption k2 v2) w)
  = run (updateOption k2 v2) (run (updateOption k1 v1) w).
Proof.
  intros Hne. unfold run. rewrite !updateOption_run. cbn.
  revert v1 v2 Hne. destruct k1, k2; intros v1 v2 Hne;
    try reflexivity; congruence.
Qed.

Lemma updateOption_commutes_witness :
  run (updateOption QRCodeOptions.key_size 250%Z)
      (run (updateOption QRCodeOptions.key_level H) (initial true))
  = run (updateOption QRCodeOptions.key_level H)
        (run (updateOption QRCodeOptions.key_size 250%Z) (initial true)).
Proof.
  apply (updateOption_commutes QRCodeOptions.key_size QRCodeOptions.key_level).
  discriminate.
Defined.

(** Writing back the value a field already has changes nothing at all. *)
Theorem updateOption_same_value (key : QRCodeOptions.Key) (w : World) :
  run (updateOption key (QRCodeOptions.get key (options w))) w = w.
Proof.
  unfold run. rewrite updateOption_run. cbn [snd].
  rewrite spread_get. unfold with_options. apply world_eta.
Qed.

(** A preset is the two color writes, in either order, plus its
    notification: the configuration [applyPreset] leaves is the one left
    by [updateOption('bgColor', ...)] and [updateOption('fgColor', ...)]. *)
Theorem applyPreset_as_two_updates (preset : PresetStyle.t) (w : World) :
  options (run (applyPreset preset) w)
  = options (exec [ on_updateOption QRCodeOptions.key_bgColor (PresetStyle.bgColor preset);
                    on_updateOption QRCodeOptions.key_fgColor (PresetStyle.fgColor preset) ] w)
  /\ options (run (applyPreset preset) w)
     = options (exec [ on_updateOption QRCodeOptions.key_fgColor (PresetStyle.fgColor preset);
                       on_updateOption QRCodeOptions.key_bgColor (PresetStyle.bgColor preset) ] w).
Proof.
  unfold run. rewrite applyPreset_run. split; reflexivity.
Qed.

(** A later preset replaces an earlier one entirely: nothing of the
    first preset is left in the configuration. *)
Theorem applyPreset_overrides (first last : PresetStyle.t) (w : World) :
  options (run (applyPreset last) (run (applyPreset first) w))
  = options (run (applyPreset last) w).
Proof.
  unfold run. rewrite !applyPreset_run. reflexivity.
Qed.

Lemma toggleMargin_run (w : World) :
  toggleMargin w
  = (Normal tt,
     with_options
       (QRCodeOptions.spread (options w) QRCodeOptions.key_includeMargin
          (negb (QRCodeOptions.includeMargin (options w)))) w).
Proof. reflexivity. Qed.

(** The margin switch flips the [includeMargin] prop handed to
    [QRCodeCanvas] and nothing else of the props, and flipping it twice
    restores the whole state. *)
Theorem toggleMargin_involutive (w : World) :
  QRCodeCanvasProps.includeMargin (qr_props (run toggleMargin w))
  = negb (QRCodeCanvasProps.includeMargin (qr_props w))
  /\ qr_props (run toggleMargin w)
     = QRCodeCanvasProps.mk
         (QRCodeCanvasProps.value (qr_props w)) (QRCodeCanvasProps.size (qr_props w))
         (QRCodeCanvasProps.level (qr_props w)) (QRCodeCanvasProps.bgColor (qr_props w))
         (QRCodeCanvasProps.fgColor (qr_props w))
         (negb (QRCodeCanvasProps.includeMargin (qr_props w)))
  /\ run toggleMargin (run toggleMargin w) = w.
Proof.
  unfold run. rewrite !toggleMargin_run. cbn.
  split; [ reflexivity | split; [ reflexivity | ] ].
  rewrite Bool.negb_involutive.
  destruct w as [t c o ts cs cl n tm ca av]. destruct o. reflexivity.
Qed.

(** ** Further properties: which handler writes which cell *)

(** The text is written by [handleTextChange] and [resetOptions] only,
    the configuration by [updateOption], [applyPreset] and
    [resetOptions] only, and the copied indicator by a resolved
    clipboard write and by the timers only. *)
Theorem cells_have_their_writers (e : Event) (w : World) :
  (writes_text e = false -> text (step e w) = text w)
  /\ (writes_options e = false -> options (step e w) = options w)
  /\ (writes_copied e = false -> copied (step e w) = copied w).
Proof.
  unfold step.
  handle_cases e w; cbn; try destruct (filter _ _);
    repeat split; intros Hw; solve [ reflexivity | discriminate Hw ].
Qed.

(** ** Further properties: the export actions *)

(** While a canvas is mounted, it is the one drawn from the text and
    options of that moment, and [downloadQRCode] clicks one more anchor,
    named [qrcode.png], whose target is the PNG of that canvas; it adds
    the notification "QR Code downloaded!", returns normally and leaves
    the text, the configuration, the indicator, the timers and the
    suspended copies as they were. *)
Theorem downloadQRCode_saves_current_code (w : World) (canvas : HTMLCanvasElement) :
  qrRef_canvas w = Some canvas ->
  canvas = Canvas (qr_props w)
  /\ (downloadQRCode w).1 = Normal tt
  /\ clicked (run downloadQRCode w)
     = clicked w ++ [ {| download := "qrcode.png"; href := png_url canvas |} ]
  /\ toasts (run downloadQRCode w)
     = toasts w ++ [ {| kind := success; message := "QR Code downloaded!" |} ]
  /\ text (run downloadQRCode w) = text w
  /\ options (run downloadQRCode w) = options w
  /\ copied (run downloadQRCode w) = copied w
  /\ timeouts (run downloadQRCode w) = timeouts w
  /\ calls (run downloadQRCode w) = calls w.
Proof.
  intros Hcanvas. split.
  - now apply qrRef_canvas_Some in Hcanvas as (_ & _ & ->).
  - unfold run. rewrite (downloadQRCode_canvas w canvas Hcanvas). repeat split.
Qed.

Lemma step_exports_of_codes (e : Event) (w : World) :
  exports_of_codes w -> exports_of_codes (step e w).
Proof.
  intros [Hclicked Hcalls]. unfold step, exports_of_codes.
  handle_cases e w; cbn [snd clicked calls with_toasts with_clicked with_calls
                         with_options with_text with_console with_copied
                         with_timeouts with_now];
    try (split; assumption);
    try (split; [ assumption | apply Forall_insert; [ assumption | exact I ] ]).
  - (* a download: the anchor of the current canvas *)
    apply qrRef_canvas_Some in E as (Htext & _ & ->).
    split; [ | assumption ].
    apply Forall_app. split; [ assumption | ].
    constructor; [ split; [ reflexivity | exact Htext ] | constructor ].
  - (* a copy is called: it holds the current canvas *)
    apply qrRef_canvas_Some in E as (Htext & _ & ->).
    split; [ assumption | ].
    apply Forall_app. split; [ assumption | ].
    constructor; [ exact Htext | constructor ].
  - (* the blob of a suspended copy: of the canvas it holds *)
    split; [ assumption | ].
    apply Forall_insert; [ assumption | ].
    apply (Forall_lookup_1 _ _ _ _ Hcalls E).
  - (* time passes *)
    destruct (filter _ _); split; assumption.
Qed.

(** From the first render on, whatever the events: every anchor ever
    clicked is named [qrcode.png] and targets the code of a non-empty
    text, and every suspended copy holds the code of a non-empty text.
    No export of an empty code ever happens. *)
Theorem exports_are_of_codes (clipboard : bool) (es : list Event) :
  exports_of_codes (exec es (initial clipboard)).
Proof.
  induction es as [ | e es IH ] using rev_ind.
  - split; constructor.
  - rewrite exec_snoc. apply step_exports_of_codes, IH.
Qed.

Lemma step_clipboard (e : Event) (w : World) :
  clipboard_available (step e w) = clipboard_available w.
Proof.
  unfold step.
  handle_cases e w; cbn; try destruct (filter _ _);
    solve [ reflexivity | assumption ].
Qed.

(** A suspended call is touched by its own resumptions only. *)
Lemma step_other_call (e : Event) (w : World) (i : nat) :
  is_Some (calls w !! i) -> resumes e <> Some i ->
  calls (step e w) !! i = calls w !! i.
Proof.
  intros Hsome Hother.
  destruct e as [ v | k v | p | | | | j | j ok | dt ]; unfold step;
    try reflexivity.
  - cbn [handle]. destruct (qrRef_canvas w) as [ c | ] eqn:E.
    + rewrite (downloadQRCode_canvas w c E). reflexivity.
    + rewrite (downloadQRCode_no_canvas w E). reflexivity.
  - cbn [handle]. destruct (qrRef_canvas w) as [ c | ] eqn:E.
    + rewrite (copyToClipboard_canvas w c E). cbn.
      apply lookup_app_l, lookup_lt_is_Some, Hsome.
    + rewrite (copyToClipboard_no_canvas w E). reflexivity.
  - assert (Hji : j <> i) by (cbn in Hother; congruence).
    rewrite handle_blob.
    destruct (calls w !! j) as [ [ c | b | ] | ]; try reflexivity.
    destruct (clipboard_available w) eqn:Hclip.
    + rewrite copy_after_blob_available by exact Hclip.
      cbn. apply list_lookup_insert_ne, Hji.
    + rewrite copy_after_blob_unavailable by exact Hclip.
      cbn. apply list_lookup_insert_ne, Hji.
  - assert (Hji : j <> i) by (cbn in Hother; congruence).
    rewrite handle_write_settled.
    destruct (calls w !! j) as [ [ c | b | ] | ]; try reflexivity.
    destruct ok.
    + rewrite copy_after_write_resolved. cbn. apply list_lookup_insert_ne, Hji.
    + rewrite copy_after_write_rejected. cbn. apply list_lookup_insert_ne, Hji.
  - cbn [handle]. rewrite elapse_run. cbn. destruct (filter _ _); reflexivity.
Qed.

Lemma exec_other_call (es : list Event) (w : World) (i : nat) :
  is_Some (calls w !! i) ->
  Forall (fun e => resumes e <> Some i) es ->
  calls (exec es w) !! i = calls w !! i.
Proof.
  intros Hsome Hes. revert w Hsome.
  induction Hes as [ | e es He _ IH ]; intros w Hsome; [ reflexivity | ].
  rewrite exec_cons, IH, (step_other_call e w i Hsome He); [ reflexivity | ].
  rewrite (step_other_call e w i Hsome He). exact Hsome.
Qed.

Lemma exec_clipboard (es : list Event) (w : World) :
  clipboard_available (exec es w) = clipboard_available w.
Proof.
  revert w. induction es as [ | e es IH ]; intros w; [ reflexivity | ].
  rewrite exec_cons, IH. apply step_clipboard.
Qed.

(** A copy exports the code that was on screen when it was called.  Let
    [copyToClipboard] be called while a canvas is mounted, in a browser
    with a clipboard.  That canvas is the one drawn from the text and
    options of the call.  Whatever happens while the call waits for its
    blob (edits, presets, a reset, other copies, time passing), it still
    holds that canvas; and the blob it then hands to the clipboard, and
    keeps while the write is in flight, is the PNG of that canvas. *)
Theorem copyToClipboard_holds_its_canvas
    (w : World) (canvas : HTMLCanvasElement) (meanwhile in_flight : list Event) :
  qrRef_canvas w = Some canvas ->
  clipboard_available w = true ->
  Forall (fun e => resumes e <> Some (length (calls w))) meanwhile ->
  Forall (fun e => resumes e <> Some (length (calls w))) in_flight ->
  canvas = Canvas (qr_props w)
  /\ calls (exec (on_copyToClipboard :: meanwhile) w) !! length (calls w)
     = Some (AwaitBlob canvas)
  /\ calls (exec (on_copyToClipboard :: meanwhile
                   ++ on_blob (length (calls w)) :: in_flight) w) !! length (calls w)
     = Some (AwaitWrite (png_blob canvas)).
Proof.
  intros Hcanvas Hclip Hmeanwhile Hflight.
  split; [ now apply qrRef_canvas_Some in Hcanvas as (_ & _ & ->) | ].
  set (i := length (calls w)) in *.
  assert (Hcalled : calls (step on_copyToClipboard w) !! i = Some (AwaitBlob canvas)).
  { unfold step. cbn [handle].
    rewrite (copyToClipboard_canvas w canvas Hcanvas).
    cbn. apply list_lookup_middle. reflexivity. }
  assert (Hwaiting : calls (exec (on_copyToClipboard :: meanwhile) w) !! i
                     = Some (AwaitBlob canvas)).
  { rewrite exec_cons, exec_other_call; [ exact Hcalled | | exact Hmeanwhile ].
    rewrite Hcalled. eexists. reflexivity. }
  split; [ exact Hwaiting | ].
  change (on_copyToClipboard :: meanwhile ++ on_blob i :: in_flight)
    with ((on_copyToClipboard :: meanwhile) ++ on_blob i :: in_flight).
  rewrite exec_app, exec_cons.
  set (w1 := exec (on_copyToClipboard :: meanwhile) w) in *.
  assert (Hblob : calls (step (on_blob i) w1) !! i = Some (AwaitWrite (png_blob canvas))).
  { unfold step. rewrite handle_blob, Hwaiting, copy_after_blob_available.
    - cbn. apply list_lookup_insert_eq. eapply lookup_lt_Some, Hwaiting.
    - unfold w1. rewrite exec_clipboard. exact Hclip. }
  rewrite exec_other_call; [ exact Hblob | | exact Hflight ].
  rewrite Hblob. eexists. reflexivity.
Qed.

(** ** Further properties: what a session at the page can reach *)

Lemma slider_value_spec (v : Z) :
  slider_value v = true -> (200 <= v <= 500)%Z /\ (v mod 10 = 0)%Z.
Proof.
  unfold slider_value. intros Hv.
  apply andb_prop in Hv as [Hv Hstep]. apply andb_prop in Hv as [Hmin Hmax].
  apply Z.leb_le in Hmin, Hmax. apply Z.eqb_eq in Hstep.
  repeat split; assumption.
Qed.

Lemma initial_within_controls : within_controls initial_options.
Proof.
  unfold within_controls, initial_options.
  cbn [QRCodeOptions.size QRCodeOptions.marginSize QRCodeOptions.imageSettings].
  repeat split; solve [ reflexivity | lia ].
Qed.

Lemma step_within_controls (e : Event) (w : World) :
  offered e w = true ->
  within_controls (options w) -> within_controls (options (step e w)).
Proof.
  intros Hoffered Hw.
  destruct (writes_options e) eqn:Hwrites.
  - destruct Hw as (Hsize & Hstep & Hmargin & Himage).
    destruct e as [ v | k v | p | | | | j | j ok | dt ]; try discriminate Hwrites.
    + (* a control of the option editor *)
      unfold step. cbn [handle]. rewrite updateOption_run.
      unfold within_controls. clear Hwrites. revert v Hoffered.
      destruct k; cbn; intros v Hoffered; try discriminate Hoffered;
        try (apply slider_value_spec in Hoffered as [Hrange Hgrid]);
        repeat split; solve [ assumption | lia ].
    + (* a preset button *)
      unfold step. cbn [handle]. rewrite applyPreset_run.
      repeat split; solve [ assumption | cbn; lia ].
    + (* "Reset all" *)
      unfold step. cbn [handle]. rewrite resetOptions_run.
      exact initial_within_controls.
  - rewrite (proj1 (proj2 (cells_have_their_writers e w)) Hwrites). exact Hw.
Qed.

(** Whatever is done at the page, the size stays on the slider (200 to
    500, in steps of 10), [marginSize] stays 4 and [imageSettings] stays
    undefined: no control writes the last two, and the first render and
    "Reset all" start from 300. *)
Theorem session_within_controls (clipboard : bool) (es : list Event) :
  session es (initial clipboard) = true ->
  within_controls (options (exec es (initial clipboard))).
Proof.
  intros Hsession.
  assert (Hgeneral : forall w,
             within_controls (options w) -> session es w = true ->
             within_controls (options (exec es w))).
  { clear Hsession.
    induction es as [ | e es IH ]; intros w Hw Hsession; [ exact Hw | ].
    cbn [session] in Hsession. apply andb_prop in Hsession as [Hoffered Hrest].
    rewrite exec_cons. apply IH; [ | exact Hrest ].
    apply step_within_controls; assumption. }
  apply Hgeneral; [ exact initial_within_controls | assumption ].
Qed.

Lemma step_surface_found (e : Event) (w : World) :
  offered e w = true ->
  Forall (fun t => t <> no_download_toast /\ t <> no_copy_toast) (toasts w) ->
  Forall (fun t => t <> no_download_toast /\ t <> no_copy_toast) (toasts (step e w)).
Proof.
  intros Hoffered Hw. unfold step.
  handle_cases e w; cbn [offered] in Hoffered; cbn; try destruct (filter _ _);
    try assumption;
    try (apply Forall_app; split; [ assumption | ];
         constructor; [ split; discriminate | constructor ]).
  - unfold qrRef_canvas in E. destruct (render w); discriminate.
  - unfold qrRef_canvas in E. destruct (render w); discriminate.
Qed.

(** At the page the two "No QR code ..." notifications never appear: the
    download and copy buttons are rendered only together with the
    canvas, so the guard on a missing canvas is never taken. *)
Theorem session_always_finds_canvas (clipboard : bool) (es : list Event) :
  session es (initial clipboard) = true ->
  (no_download_toast ∉ toasts (exec es (initial clipboard)))
  /\ (no_copy_toast ∉ toasts (exec es (initial clipboard))).
Proof.
  intros Hsession.
  assert (Hgeneral : forall w,
             Forall (fun t => t <> no_download_toast /\ t <> no_copy_toast) (toasts w) ->
             session es w = true ->
             Forall (fun t => t <> no_download_toast /\ t <> no_copy_toast)
                    (toasts (exec es w))).
  { clear Hsession.
    induction es as [ | e es IH ]; intros w Hw Hsession; [ exact Hw | ].
    cbn [session] in Hsession. apply andb_prop in Hsession as [Hoffered Hrest].
    rewrite exec_cons. apply IH; [ | exact Hrest ].
    apply step_surface_found; assumption. }
  specialize (Hgeneral (initial clipboard) (Forall_nil_2 _) Hsession).
  rewrite Forall_forall in Hgeneral.
  split; intros Hin; apply Hgeneral in Hin as [Hd Hc]; congruence.
Qed.

(** ** Further properties: the copied indicator always clears *)

Lemma clearing_by_mono (T T' : nat) (w : World) :
  clearing_by T w -> T <= T' -> clearing_by T' w.
Proof.
  intros [Hdue Hon] Hle. split; [ | exact Hon ].
  eapply Forall_impl; [ exact Hdue | ]. cbn. intros t Ht. lia.
Qed.

Lemma elapse_clearing (T dt : nat) (w : World) :
  clearing_by T w -> clearing_by T (step (on_elapse dt) w).
Proof.
  intros [Hdue Hon]. unfold step. cbn [handle]. rewrite elapse_run. cbn [snd].
  assert (Hrest : Forall (fun t => now w + dt < t.1 /\ t.1 <= T)
                         (filter (fun t => now w + dt < t.1) (timeouts w))).
  { apply Forall_forall. intros t Ht.
    apply list_elem_of_filter in Ht as [Hlater Hin].
    rewrite Forall_forall in Hdue. specialize (Hdue t Hin). lia. }
  destruct (filter (fun t => t.1 <= now w + dt) (timeouts w)) as [ | t due ] eqn:Hnone.
  - split; [ exact Hrest | ]. cbn. intros Hcopied.
    rewrite filter_all; [ exact (Hon Hcopied) | ].
    apply Forall_forall. intros t Hin.
    destruct (decide (t.1 <= now w + dt)) as [ Hle | Hgt ]; [ | lia ].
    exfalso. exact (filter_nil_not_elem_of _ _ t Hnone Hle Hin).
  - split; [ exact Hrest | ]. cbn. discriminate.
Qed.

(** While no write resolves, no timer is added. *)
Lemma step_clearing_quiet (T : nat) (e : Event) (w : World) :
  is_resolution e = false -> clearing_by T w -> clearing_by T (step e w).
Proof.
  intros Hquiet Hw.
  destruct e as [ v | k v | p | | | | j | j ok | dt ];
    try (apply elapse_clearing; exact Hw);
    try exact Hw.
  - unfold step. cbn [handle]. destruct (qrRef_canvas w) as [ c | ] eqn:E.
    + rewrite (downloadQRCode_canvas w c E). exact Hw.
    + rewrite (downloadQRCode_no_canvas w E). exact Hw.
  - unfold step. cbn [handle]. destruct (qrRef_canvas w) as [ c | ] eqn:E.
    + rewrite (copyToClipboard_canvas w c E). exact Hw.
    + rewrite (copyToClipboard_no_canvas w E). exact Hw.
  - unfold step. rewrite handle_blob.
    destruct (calls w !! j) as [ [ c | b | ] | ]; try exact Hw.
    destruct (clipboard_available w) eqn:Hclip.
    + rewrite copy_after_blob_available by exact Hclip. exact Hw.
    + rewrite copy_after_blob_unavailable by exact Hclip. exact Hw.
  - destruct ok; [ discriminate Hquiet | ].
    unfold step. rewrite handle_write_settled.
    destruct (calls w !! j) as [ [ c | b | ] | ]; exact Hw.
Qed.

(** Every event keeps the timers within 2000 ms of the clock. *)
Lemma step_clearing (e : Event) (w : World) :
  clearing_by (now w + 2000) w ->
  clearing_by (now (step e w) + 2000) (step e w).
Proof.
  intros Hw.
  destruct (is_resolution e) eqn:Hres.
  - destruct e as [ v | k v | p | | | | j | j ok | dt ]; try discriminate Hres.
    destruct ok; [ | discriminate Hres ].
    unfold step. rewrite handle_write_settled.
    destruct (calls w !! j) as [ [ c | b | ] | ]; try exact Hw.
    rewrite copy_after_write_resolved. destruct Hw as [Hdue _].
    split; cbn.
    + apply Forall_app. split; [ exact Hdue | ].
      constructor; [ cbn; lia | constructor ].
    + intros _ Hnil. apply app_eq_nil in Hnil as [_ Hnil]. discriminate Hnil.
  - eapply clearing_by_mono.
    + apply step_clearing_quiet; [ exact Hres | exact Hw ].
    + rewrite step_clock. lia.
Qed.

Lemma reachable_clearing (clipboard : bool) (es : list Event) :
  clearing_by (now (exec es (initial clipboard)) + 2000) (exec es (initial clipboard)).
Proof.
  induction es as [ | e es IH ] using rev_ind.
  - split; [ constructor | discriminate ].
  - rewrite exec_snoc. apply step_clearing, IH.
Qed.

Lemma exec_clearing_quiet (T : nat) (es : list Event) (w : World) :
  Forall (fun e => is_resolution e = false) es ->
  clearing_by T w -> clearing_by T (exec es w).
Proof.
  intros Hes. revert w.
  induction Hes as [ | e es He _ IH ]; intros w Hw; [ exact Hw | ].
  rewrite exec_cons. apply IH, step_clearing_quiet; assumption.
Qed.

Lemma clearing_done (T : nat) (w : World) :
  clearing_by T w -> T <= now w -> copied w = false /\ timeouts w = [].
Proof.
  intros [Hdue Hon] Hpast.
  assert (Hnil : timeouts w = []).
  { destruct (timeouts w) as [ | t rest ]; [ reflexivity | ].
    apply Forall_cons_1 in Hdue as [Ht _]. lia. }
  split; [ | exact Hnil ].
  destruct (copied w); [ | reflexivity ].
  exfalso. exact (Hon eq_refl Hnil).
Qed.

(** The indicator never sticks.  In any state reached from the first
    render, once 2000 ms have passed without a clipboard write resolving,
    whatever else happened meanwhile, the copied indicator is off and no
    timer is left pending. *)
Theorem copied_indicator_clears
    (clipboard : bool) (before since : list Event) :
  Forall (fun e => is_resolution e = false) since ->
  2000 <= elapsed since ->
  copied (exec (before ++ since) (initial clipboard)) = false
  /\ timeouts (exec (before ++ since) (initial clipboard)) = [].
Proof.
  intros Hquiet Hlong. rewrite exec_app.
  set (w := exec before (initial clipboard)).
  apply (clearing_done (now w + 2000)).
  - apply exec_clearing_quiet; [ exact Hquiet | apply reachable_clearing ].
  - rewrite exec_clock. lia.
Qed.

(** ** Further properties: the preset catalogue *)

(** The six presets are told apart by their names, which the page uses
    as the keys of the preset buttons and in the notification of
    [applyPreset]: two entries of [presetStyles] with the same name are
    the same entry. *)
Theorem presetStyles_named_apart (p q : PresetStyle.t) :
  p ∈ presetStyles -> q ∈ presetStyles ->
  PresetStyle.name p = PresetStyle.name q -> p = q.
Proof.
  unfold presetStyles. intros Hp Hq Hname.
  repeat (apply elem_of_cons in Hp as [ -> | Hp ]);
    try (apply elem_of_nil in Hp; destruct Hp);
    repeat (apply elem_of_cons in Hq as [ -> | Hq ]);
    try (apply elem_of_nil in Hq; destruct Hq);
    solve [ reflexivity | discriminate Hname ].
Qed.

Lemma presetStyles_named_apart_witness :
  PresetStyle.mk "Night" "#1E293B" "#E2E8F0" "🌙" "black"
  = PresetStyle.mk "Night" "#1E293B" "#E2E8F0" "🌙" "black".
Proof.
  apply presetStyles_named_apart.
  - apply list_elem_of_lookup. exists 4. reflexivity.
  - apply list_elem_of_lookup. exists 4. reflexivity.
  - reflexivity.
Defined.

End Page.

(** ** Instances

    The statements above hold for every rendering capability.  They are
    exercised here, and the refuted readings are refuted, with the sample
    capability [fits_version_40]. *)

Lemma marginSize_not_rendered_witness :
  qrRef_canvas fits_version_40 (run (handleTextChange "hi") (initial true))
  = qrRef_canvas fits_version_40
      (run (updateOption QRCodeOptions.key_marginSize 10%Z)
           (run (handleTextChange "hi") (initial true))).
Proof.
  refine (proj1 (proj2 (marginSize_not_rendered fits_version_40
                          (run (handleTextChange "hi") (initial true))
                          (run (updateOption QRCodeOptions.key_marginSize 10%Z)
                               (run (handleTextChange "hi") (initial true)))
                          _ _))).
  - reflexivity.
  - intros k Hk. destruct k; try reflexivity. congruence.
Defined.

(** C8, as stated, fails: after typing 3000 characters the text is
    non-empty, and there is no canvas: the page is blank. *)
Lemma surface_absent_for_long_text :
  text (step fits_version_40 (on_handleTextChange long_text) (initial true)) <> ""
  /\ qrRef_canvas fits_version_40
       (step fits_version_40 (on_handleTextChange long_text) (initial true)) = None
  /\ render fits_version_40
       (step fits_version_40 (on_handleTextChange long_text) (initial true)) = Blank
  /\ ~ surface_iff_nonempty_text fits_version_40.
Proof.
  assert (Htext :
    text (step fits_version_40 (on_handleTextChange long_text) (initial true)) <> "").
  { apply truthy_spec. vm_compute. reflexivity. }
  assert (Hnone :
    qrRef_canvas fits_version_40
      (step fits_version_40 (on_handleTextChange long_text) (initial true)) = None).
  { vm_compute. reflexivity. }
  split; [ exact Htext | split; [ exact Hnone | split; [ vm_compute; reflexivity | ] ] ].
  intros Hclaim. apply Hclaim in Htext as [c Hc].
  rewrite Hnone in Hc. discriminate Hc.
Qed.

Lemma surface_iff_text_witness :
  (qrRef_canvas fits_version_40 (initial true) = None
   /\ render fits_version_40 (initial true) = Placeholder)
  /\ is_Some (qrRef_canvas fits_version_40 (run (handleTextChange "hi") (initial true)))
  /\ render fits_version_40 (run (handleTextChange long_text) (initial true)) = Blank.
Proof.
  split; [ | split ].
  - apply (surface_iff_text fits_version_40 (initial true)). reflexivity.
  - apply (surface_iff_text fits_version_40 (run (handleTextChange "hi") (initial true))).
    split; [ vm_compute; discriminate | vm_compute; reflexivity ].
  - apply (surface_iff_text fits_version_40
             (run (handleTextChange long_text) (initial true))).
    + apply truthy_spec. vm_compute. reflexivity.
    + vm_compute. reflexivity.
Defined.

Lemma export_without_surface_witness :
  toasts (run (downloadQRCode fits_version_40) (initial true)) = [no_download_toast]
  /\ toasts (run (copyToClipboard fits_version_40) (initial true)) = [no_copy_toast]
  /\ options (step fits_version_40 on_copyToClipboard
                (exec fits_version_40 [on_handleTextChange "hi"] (initial true)))
     = initial_options.
Proof.
  destruct (export_without_surface fits_version_40 (initial true))
    as (Hempty & Hfail & _).
  destruct (Hfail (Hempty eq_refl)) as (_ & Hdownload & _ & _ & Hcopy & _).
  split; [ exact Hdownload | split; [ exact Hcopy | ] ].
  destruct (export_without_surface fits_version_40
              (exec fits_version_40 [on_handleTextChange "hi"] (initial true)))
    as (_ & _ & Hframe).
  destruct (Hframe on_copyToClipboard eq_refl) as (_ & Hoptions & _).
  exact Hoptions.
Defined.

Lemma copyToClipboard_unsupported_witness :
  calls (exec fits_version_40 [on_handleTextChange "hi"; on_copyToClipboard] (initial false))
  = [AwaitBlob (Canvas (QRCodeCanvasProps.mk "hi" 300 M "#FFFFFF" "#000000" true))]
  /\ copy_unsupported 0
       (exec fits_version_40 [on_handleTextChange "hi"; on_copyToClipboard] (initial false))
       (exec fits_version_40 [on_handleTextChange "hi"; on_copyToClipboard; on_blob 0]
             (initial false))
  /\ copy_unsupported 0
       (exec fits_version_40 [on_handleTextChange "hi"; on_copyToClipboard; on_blob 0]
             (initial true))
       (exec fits_version_40 [on_handleTextChange "hi"; on_copyToClipboard; on_blob 0;
                              on_write_settled 0 false] (initial true)).
Proof.
  split; [ | split ].
  - refine (proj1 (proj1 (copyToClipboard_unsupported fits_version_40
                            (exec fits_version_40 [on_handleTextChange "hi"] (initial false))
                            0) _ _)).
    reflexivity.
  - refine (proj2 (proj1 (proj2 (copyToClipboard_unsupported fits_version_40
                                   (exec fits_version_40
                                         [on_handleTextChange "hi"; on_copyToClipboard]
                                         (initial false))
                                   0)) _ _ _)); reflexivity.
  - refine (proj2 (proj2 (proj2 (copyToClipboard_unsupported fits_version_40
                                   (exec fits_version_40
                                         [on_handleTextChange "hi"; on_copyToClipboard;
                                          on_blob 0]
                                         (initial true))
                                   0)) _ _)); reflexivity.
Defined.

(** C7, as stated, fails: with a capability that holds at most the 2331
    bytes of a version-40 symbol at level M, typing 3000 characters into
    the first render leaves a non-empty text that cannot be encoded, no
    notification at all, and a blank page. *)
Lemma encoding_failure_not_surfaced :
  text (step fits_version_40 (on_handleTextChange long_text) (initial true)) <> ""
  /\ fits_version_40
       (qr_props (step fits_version_40 (on_handleTextChange long_text) (initial true)))
     = false
  /\ toasts (step fits_version_40 (on_handleTextChange long_text) (initial true)) = []
  /\ render fits_version_40
       (step fits_version_40 (on_handleTextChange long_text) (initial true)) = Blank
  /\ ~ encoding_failure_surfaced fits_version_40.
Proof.
  assert (Htext :
    text (step fits_version_40 (on_handleTextChange long_text) (initial true)) <> "").
  { apply truthy_spec. vm_compute. reflexivity. }
  assert (Hfits :
    fits_version_40
      (qr_props (step fits_version_40 (on_handleTextChange long_text) (initial true)))
    = false).
  { vm_compute. reflexivity. }
  split; [ exact Htext | split; [ exact Hfits | split; [ reflexivity | split ] ] ].
  - vm_compute. reflexivity.
  - intros Hclaim.
    destruct (Hclaim (initial true) (on_handleTextChange long_text) Htext Hfits)
      as (t & Hin & _).
    unfold emitted in Hin. change (t ∈ @nil Toast) in Hin.
    apply elem_of_nil in Hin. exact Hin.
Qed.

Lemma encoding_failure_left_to_capability_witness :
  render fits_version_40
    (step fits_version_40 (on_handleTextChange long_text) (initial true)) = Blank
  /\ toasts (step fits_version_40 (on_handleTextChange long_text) (initial true)) = [].
Proof.
  assert (Htext :
    text (step fits_version_40 (on_handleTextChange long_text) (initial true)) <> "")
    by (apply truthy_spec; vm_compute; reflexivity).
  assert (Hfits :
    fits_version_40
      (qr_props (step fits_version_40 (on_handleTextChange long_text) (initial true)))
    = false)
    by (vm_compute; reflexivity).
  destruct (encoding_failure_left_to_capability fits_version_40
              (initial true) (on_handleTextChange long_text) Htext Hfits)
    as (Hblank & _ & Hquiet & _).
  split; [ exact Hblank | exact (Hquiet eq_refl) ].
Defined.



Lemma cells_have_their_writers_witness :
  text (step fits_version_40 on_downloadQRCode
          (exec fits_version_40 [on_handleTextChange "hi"] (initial true))) = "hi"
  /\ options (step fits_version_40 on_downloadQRCode
                (exec fits_version_40 [on_handleTextChange "hi"] (initial true)))
     = initial_options
  /\ copied (step fits_version_40 on_downloadQRCode
               (exec fits_version_40 [on_handleTextChange "hi"] (initial true)))
     = false.
Proof.
  destruct (cells_have_their_writers
              fits_version_40 on_downloadQRCode
              (exec fits_version_40 [on_handleTextChange "hi"] (initial true)))
    as (Htext & Hoptions & Hcopied).
  split; [ exact (Htext eq_refl) | split; [ exact (Hoptions eq_refl) | exact (Hcopied eq_refl) ] ].
Defined.

Lemma downloadQRCode_saves_current_code_witness :
  clicked (run (downloadQRCode fits_version_40)
             (exec fits_version_40
                   [on_handleTextChange "hi";
                    on_updateOption QRCodeOptions.key_level H] (initial true)))
  = [ {| download := "qrcode.png";
         href := png_url (Canvas (QRCodeCanvasProps.mk "hi" 300 H "#FFFFFF" "#000000" true)) |} ].
Proof.
  refine (proj1 (proj2 (proj2
            (downloadQRCode_saves_current_code fits_version_40
               (exec fits_version_40
                     [on_handleTextChange "hi";
                      on_updateOption QRCodeOptions.key_level H] (initial true))
               (Canvas (QRCodeCanvasProps.mk "hi" 300 H "#FFFFFF" "#000000" true))
               _)))).
  reflexivity.
Defined.

Lemma copyToClipboard_holds_its_canvas_witness :
  calls (exec fits_version_40
              [on_handleTextChange "old"; on_copyToClipboard;
               on_handleTextChange "new"; on_blob 0; on_resetOptions] (initial true)) !! 0
  = Some (AwaitWrite
            (png_blob (Canvas (QRCodeCanvasProps.mk "old" 300 M "#FFFFFF" "#000000" true)))).
Proof.
  assert (Hmeanwhile : Forall (fun e => resumes e <> Some 0) [on_handleTextChange "new"])
    by (repeat constructor; discriminate).
  assert (Hflight : Forall (fun e => resumes e <> Some 0) [on_resetOptions])
    by (repeat constructor; discriminate).
  refine (proj2 (proj2 (copyToClipboard_holds_its_canvas
                          fits_version_40
                          (exec fits_version_40 [on_handleTextChange "old"] (initial true))
                          (Canvas (QRCodeCanvasProps.mk "old" 300 M "#FFFFFF" "#000000" true))
                          [on_handleTextChange "new"] [on_resetOptions]
                          _ eq_refl Hmeanwhile Hflight))).
  reflexivity.
Defined.

Lemma session_within_controls_witness :
  within_controls
    (options (exec fits_version_40
                   [on_updateOption QRCodeOptions.key_size 500%Z;
                    on_updateOption QRCodeOptions.key_includeMargin false;
                    on_applyPreset (PresetStyle.mk "Night" "#1E293B" "#E2E8F0" "🌙" "black")]
                   (initial true))).
Proof.
  apply (session_within_controls fits_version_40 true). vm_compute. reflexivity.
Defined.

Lemma session_always_finds_canvas_witness :
  no_download_toast
    ∉ toasts (exec fits_version_40
                   [on_handleTextChange "hi"; on_downloadQRCode; on_copyToClipboard;
                    on_resetOptions] (initial false)).
Proof.
  apply (session_always_finds_canvas fits_version_40 false). vm_compute. reflexivity.
Defined.

Lemma copied_indicator_clears_witness :
  copied (exec fits_version_40
               (two_copies ++ [on_write_settled 1 false; on_elapse 1200; on_elapse 800])
               (initial true)) = false.
Proof.
  refine (proj1 (copied_indicator_clears fits_version_40 true two_copies
                   [on_write_settled 1 false; on_elapse 1200; on_elapse 800] _ _)).
  - repeat constructor.
  - cbn. lia.
Defined.
